(** * WebRsync sync module (lib/portage/sync/modules/webrsync/webrsync.py)

    A shallow embedding of the [WebRsync] and [PyWebRsync] sync classes.
    Python objects become records, dictionaries become [gmap]s, and the
    statements of [sync] become computations in a small monad that threads
    the instance, the local variable [openpgp_env] and a chronological
    trace of the calls made to the collaborators (message output, keyring
    library, process spawning).  Python's three ways of leaving a block
    (falling through, [return], raising) are the three constructors of
    [ctl], so that [try/except] and [try/finally] can be written as the
    source has them. *)

From Stdlib Require Import ZArith Ascii String List Bool Lia.
From stdpp Require Import base option list strings gmap.

Local Open Scope string_scope.
Local Open Scope Z_scope.

(** ** Strings *)

Module PyStr.

(** The newline character of the message literals. *)
Definition nl : string := String (ascii_of_nat 10) EmptyString.

(** [str.lower()], on the ASCII letters.  No code point outside ASCII
    lowers to one of the letters of the literals compared against below. *)
Definition lower_ascii (c : ascii) : ascii :=
  let n := nat_of_ascii c in
  if ((65 <=? n) && (n <=? 90))%nat then ascii_of_nat (n + 32) else c.

Fixpoint lower (s : string) : string :=
  match s with
  | EmptyString => EmptyString
  | String c s' => String (lower_ascii c) (lower s')
  end.

(** [x in (a, b, ...)]: membership in a tuple of strings, by [==]. *)
Definition str_in (x : string) (t : list string) : bool :=
  existsb (String.eqb x) t.

(** [d.get(key, default)] *)
Definition dict_get (d : gmap string string) (key dflt : string) : string :=
  default dflt (d !! key).

(** Truthiness of an optional string: [None] and the empty string are
    false. *)
Definition truthy (o : option string) : bool :=
  match o with
  | None => false
  | Some EmptyString => false
  | Some _ => true
  end.

End PyStr.
Import PyStr.

(** ** Data *)

(** [self.repo], as far as [sync] reads it. *)
Record RepoConfig := mkRepo {
  location : string;
  module_specific_options : gmap string string;
  sync_openpgp_key_path : option string
}.

(** Values of the keyword arguments of [portage.process.spawn] other than
    [env]. *)
Inductive kwval :=
| KwInt (n : Z)
| KwInts (l : list Z).

(** [self.spawn_kwargs]: the [env] dictionary and the other keyword
    arguments ([uid], [gid], [groups], [umask], ...). *)
Record SpawnKwargs := mkSpawnKwargs {
  env : gmap string string;
  kw : gmap string kwval
}.

(** The fields of a [WebRsync] instance that [has_bin] and [sync] use.
    [opts] is [self.options["emerge_config"].opts]. *)
Record WebRsync := mkWebRsync {
  _bin_command : string;
  bin_command : option string;
  bin_pkg : string;
  repo : RepoConfig;
  opts : gset string;
  xterm_titles : bool;
  spawn_kwargs : SpawnKwargs
}.

(** The options a caller passes to [sync] as keyword arguments. *)
Record SyncOptions := mkSyncOptions {
  o_repo : RepoConfig;
  o_opts : gset string;
  o_xterm_titles : bool;
  o_spawn_kwargs : SpawnKwargs
}.

(** A [gemato.openpgp.OpenPGPEnvironment]; [home] is its directory. *)
Record OpenPGPEnv := mkOpenPGPEnv {
  home : string
}.

(** Exceptions.  [GematoException] and [TimeoutError] are the two classes
    the [except] clause of [sync] names; the message is [str(e)]. *)
Inductive exn :=
| GematoException (msg : string)
| TimeoutError (msg : string)
| OSError (msg : string)
| NotImplementedError (msg : string)
| OtherException (cls msg : string).

Definition exn_str (e : exn) : string :=
  match e with
  | GematoException m | TimeoutError m | OSError m
  | NotImplementedError m | OtherException _ m => m
  end.

(** [except (GematoException, asyncio.TimeoutError)] *)
Definition is_keyring_exn (e : exn) : bool :=
  match e with
  | GematoException _ | TimeoutError _ => true
  | _ => false
  end.

(** What a call to a collaborator does: it returns or it raises. *)
Inductive result (A : Type) :=
| Ok (a : A)
| Err (e : exn).
Arguments Ok {A} a.
Arguments Err {A} e.

(** The collaborators of the module, none of which is defined in
    webrsync.py, taken as parameters: the process layer ([find_binary],
    [spawn], [os.EX_OK]), the file system ([os.path.isfile], [open]), the
    keyring library (whether [gemato] was imported, [import_key]) and the
    base class.  [base_has_bin] is [SyncBase.has_bin], which decides from
    the three binary fields of the instance whether the external binary is
    usable; [get_openpgp_env] and [refresh_keys] are
    [SyncBase._get_openpgp_env] and [SyncBase._refresh_keys]; [close] is
    the [close] method of the environment.  A call returns a value or
    raises an exception of any class. *)
Record World := mkWorld {
  EX_OK : Z;
  find_binary : string -> option string;
  base_has_bin : string -> option string -> string -> bool;
  isfile : string -> bool;
  gemato : bool;
  get_openpgp_env : string -> result OpenPGPEnv;
  open_rb : string -> result string;
  import_key : OpenPGPEnv -> string -> result unit;
  refresh_keys : OpenPGPEnv -> result unit;
  spawn : list (option string) -> SpawnKwargs -> result Z;
  close : OpenPGPEnv -> result unit
}.

(** Calls observed during one execution, in the order they are made. *)
Inductive event :=
| EvWritemsgError (msg : string)
| EvLogger (titles : bool) (msg : string)
| EvEinfo (quiet : bool) (msg : string)
| EvFindBinary (name : string)
| EvGetOpenpgpEnv (path : string) (r : option OpenPGPEnv)
| EvOpen (path : string)
| EvImportKey (h : OpenPGPEnv)
| EvRefreshKeys (h : OpenPGPEnv)
| EvClose (h : OpenPGPEnv)
| EvSpawn (cmd : list (option string)) (kwargs : SpawnKwargs).

(** ** Control flow *)

(** The state of one call: the instance, the local [openpgp_env] of
    [sync], and the trace. *)
Record Frame := mkFrame {
  self : WebRsync;
  openpgp_env : option OpenPGPEnv;
  trace : list event
}.

Inductive ctl (R A : Type) :=
| Normal (a : A)
| Return (r : R)
| Raise (e : exn).
Arguments Normal {R A} a.
Arguments Return {R A} r.
Arguments Raise {R A} e.

Module Py.

(** Computations of a function body whose [return] carries an [R]. *)
Definition M (R A : Type) : Type := Frame -> ctl R A * Frame.

Definition ret {R A} (a : A) : M R A := fun st => (Normal a, st).

Definition bind {R A B} (m : M R A) (k : A -> M R B) : M R B :=
  fun st =>
    match m st with
    | (Normal a, st') => k a st'
    | (Return r, st') => (Return r, st')
    | (Raise e, st') => (Raise e, st')
    end.

(** [return r] *)
Definition return_ {R A} (r : R) : M R A := fun st => (Return r, st).

(** [raise e] *)
Definition raise {R A} (e : exn) : M R A := fun st => (Raise e, st).

(** [try: body except <classes> as e: handler e] *)
Definition try_except {R A} (body : M R A) (classes : exn -> bool)
    (handler : exn -> M R A) : M R A :=
  fun st =>
    match body st with
    | (Raise e, st') =>
        if classes e then handler e st' else (Raise e, st')
    | other => other
    end.

(** [try: body finally: fin].  The [finally] block runs on every way
    out of [body]; when it completes normally the pending outcome of
    [body] stands. *)
Definition try_finally {R A} (body : M R A) (fin : M R unit) : M R A :=
  fun st =>
    match body st with
    | (c, st') =>
        match fin st' with
        | (Normal _, st'') => (c, st'')
        | (Return r, st'') => (Return r, st'')
        | (Raise e, st'') => (Raise e, st'')
        end
    end.

Definition get_self {R} : M R WebRsync := fun st => (Normal (self st), st).

Definition put_self {R} (s : WebRsync) : M R unit :=
  fun st => (Normal tt, mkFrame s (openpgp_env st) (trace st)).

Definition get_openpgp_env_var {R} : M R (option OpenPGPEnv) :=
  fun st => (Normal (openpgp_env st), st).

Definition set_openpgp_env_var {R} (o : option OpenPGPEnv) : M R unit :=
  fun st => (Normal tt, mkFrame (self st) o (trace st)).

Definition emit {R} (e : event) : M R unit :=
  fun st => (Normal tt, mkFrame (self st) (openpgp_env st) (trace st ++ [e])).

(** The outcome of a collaborator call enters the control flow. *)
Definition lift {R A} (r : result A) : M R A :=
  match r with
  | Ok a => ret a
  | Err e => raise e
  end.

End Py.
Import Py.

#[global] Instance M_ret {R} : MRet (M R) := fun A => @ret R A.
#[global] Instance M_bind {R} : MBind (M R) := fun A B k m => @bind R A B m k.

(** ** The WebRsync class *)

Definition delta_cmd : string := "emerge-delta-webrsync".

(** [writemsg_level(msg, level=logging.ERROR, noiselevel=-1)] *)
Definition writemsg_level_error {R} (msg : string) : M R unit :=
  emit (EvWritemsgError msg).

(** Modelled from the spec: [SyncBase._kwargs], which is not part of
    webrsync.py; it installs the caller's options (repository, emerge
    options, xterm_titles and spawn arguments) on the instance. *)
Definition _kwargs {R} (o : SyncOptions) : M R unit :=
  s ← get_self;
  put_self (mkWebRsync (_bin_command s) (bin_command s) (bin_pkg s)
              (o_repo o) (o_opts o) (o_xterm_titles o) (o_spawn_kwargs o)).

(** The condition on [sync-webrsync-delta] in [has_bin], on [self.repo]. *)
Definition delta_enabled (r : RepoConfig) : bool :=
  str_in
    (lower (dict_get (module_specific_options r)
              "sync-webrsync-delta" "false"))
    ["true"; "yes"].

(** The condition on [sync-webrsync-verify-signature] in [sync]. *)
Definition verify_signature_enabled (r : RepoConfig) : bool :=
  str_in
    (lower (dict_get (module_specific_options r)
              "sync-webrsync-verify-signature" "false"))
    ["true"; "yes"].

(** The condition on [sync-webrsync-keep-snapshots] in [sync]. *)
Definition keep_snapshots_enabled (r : RepoConfig) : bool :=
  str_in
    (lower (dict_get (module_specific_options r)
              "sync-webrsync-keep-snapshots" "false"))
    ["true"; "yes"].

(** The [has_bin] property. *)
Definition has_bin {R} (w : World) : M R bool :=
  s ← get_self;
  (if negb (String.eqb (_bin_command s) delta_cmd) && delta_enabled (repo s)
   then
     emit (EvFindBinary delta_cmd);;
     put_self (mkWebRsync delta_cmd (find_binary w delta_cmd)
                 ">=app-portage/emerge-delta-webrsync-3.7.5"
                 (repo s) (opts s) (xterm_titles s) (spawn_kwargs s))
   else mret tt);;
  s' ← get_self;
  mret (base_has_bin w (_bin_command s') (bin_command s') (bin_pkg s')).

(** [self.spawn_kwargs.pop(var, None)] *)
Definition pop_spawn_kwarg {R} (var : string) : M R unit :=
  s ← get_self;
  put_self (mkWebRsync (_bin_command s) (bin_command s) (bin_pkg s)
              (repo s) (opts s) (xterm_titles s)
              (mkSpawnKwargs (env (spawn_kwargs s))
                 (delete var (kw (spawn_kwargs s))))).

(** [self.spawn_kwargs["env"][name] = value] *)
Definition set_spawn_env {R} (name value : string) : M R unit :=
  s ← get_self;
  put_self (mkWebRsync (_bin_command s) (bin_command s) (bin_pkg s)
              (repo s) (opts s) (xterm_titles s)
              (mkSpawnKwargs (<[name := value]> (env (spawn_kwargs s)))
                 (kw (spawn_kwargs s)))).

(** [list.append] on the local [webrsync_cmd]. *)
Definition append (cmd : list (option string)) (arg : string)
  : list (option string) := cmd ++ [Some arg].

Definition SyncResult : Type := Z * bool.

(** [WebRsync.sync]. *)
Definition sync (w : World) (kwargs : option SyncOptions)
  : M SyncResult Empty_set :=
  match kwargs with Some o => _kwargs o | None => mret tt end;;
  ok ← has_bin w;
  (if negb ok then return_ (1, false) else mret tt);;
  mapM (M := M SyncResult) pop_spawn_kwarg ["uid"; "gid"; "groups"];;
  s ← get_self;
  let verbose := bool_decide ("--verbose" ∈ opts s) in
  let quiet := bool_decide ("--quiet" ∈ opts s) in
  set_openpgp_env_var None;;
  try_finally
    ((if verify_signature_enabled (repo s) then
        let key_path := sync_openpgp_key_path (repo s) in
        (if negb (truthy key_path) then
           writemsg_level_error ("!!! sync-openpgp-key-path is not set" +:+ nl);;
           return_ (1, false)
         else mret tt);;
        let path := default "" key_path in
        (if negb (isfile w path) then
           writemsg_level_error
             ("!!! sync-openpgp-key-path file not found: " +:+ path +:+ nl);;
           return_ (1, false)
         else mret tt);;
        (if negb (gemato w) then
           writemsg_level_error
             ("!!! Verifying against specified key requires gemato-14.5+ installed"
              +:+ nl);;
           return_ (1, false)
         else mret tt);;
        let r := get_openpgp_env w path in
        emit (EvGetOpenpgpEnv path
                (match r with Ok h => Some h | Err _ => None end));;
        h ← lift r;
        set_openpgp_env_var (Some h);;
        try_except
          (emit (EvEinfo quiet ("Using keys from " +:+ path));;
           emit (EvOpen path);;
           f ← lift (open_rb w path);
           emit (EvImportKey h);;
           lift (import_key w h f);;
           emit (EvRefreshKeys h);;
           lift (refresh_keys w h);;
           set_spawn_env "PORTAGE_GPG_DIR" (home h);;
           set_spawn_env "PORTAGE_TEMP_GPG_DIR" (home h))
          is_keyring_exn
          (fun e =>
             writemsg_level_error
               ("!!! Verification impossible due to keyring problem:" +:+ nl
                +:+ exn_str e +:+ nl);;
             return_ (1, false))
      else mret tt);;
     s1 ← get_self;
     let webrsync_cmd := [bin_command s1] in
     let webrsync_cmd :=
       if verbose then append webrsync_cmd "-v"
       else if quiet then append webrsync_cmd "-q"
       else webrsync_cmd in
     let webrsync_cmd :=
       if keep_snapshots_enabled (repo s1) then append webrsync_cmd "-k"
       else webrsync_cmd in
     emit (EvSpawn webrsync_cmd (spawn_kwargs s1));;
     exitcode ← lift (spawn w webrsync_cmd (spawn_kwargs s1));
     (if negb (exitcode =? EX_OK w) then
        let msg := "!!! emerge-webrsync error in " +:+ location (repo s1) in
        emit (EvLogger (xterm_titles s1) msg);;
        writemsg_level_error (msg +:+ nl);;
        return_ (exitcode, false)
      else mret tt);;
     return_ (exitcode, true))
    (o ← get_openpgp_env_var;
     match o with
     | Some h => emit (EvClose h);; lift (close w h)
     | None => mret tt
     end).

(** ** The PyWebRsync class *)

(** [PyWebRsync.sync] *)
Definition py_sync (kwargs : option SyncOptions) : M SyncResult Empty_set :=
  raise (NotImplementedError
           "Python impl. of webrsync backend is not yet implemented").

(** ** Running the methods *)

(** A call of [sync] on [obj], from an empty trace. *)
Definition call_sync (w : World) (obj : WebRsync) (kwargs : option SyncOptions)
  : ctl SyncResult Empty_set * Frame :=
  sync w kwargs (mkFrame obj None []).

(** Its outcome, the trace of the calls it made and the instance it leaves
    behind. *)
Definition sync_outcome (w : World) (obj : WebRsync) (kwargs : option SyncOptions)
  : ctl SyncResult Empty_set :=
  (call_sync w obj kwargs).1.

Definition sync_trace (w : World) (obj : WebRsync) (kwargs : option SyncOptions)
  : list event :=
  trace (call_sync w obj kwargs).2.

Definition sync_self (w : World) (obj : WebRsync) (kwargs : option SyncOptions)
  : WebRsync :=
  self (call_sync w obj kwargs).2.

(** A call of [PyWebRsync.sync] in an arbitrary frame. *)
Definition call_py_sync (kwargs : option SyncOptions) (st : Frame)
  : ctl SyncResult Empty_set * Frame :=
  py_sync kwargs st.

(** One read of the property [obj.has_bin], from an empty trace. *)
Definition read_has_bin (w : World) (obj : WebRsync) : ctl SyncResult bool * Frame :=
  has_bin w (mkFrame obj None []).

(** The value of the read, the instance it leaves behind and the calls it
    made. *)
Definition has_bin_value (w : World) (obj : WebRsync) : bool :=
  match (read_has_bin w obj).1 with
  | Normal b => b
  | _ => false
  end.

Definition resolved (w : World) (obj : WebRsync) : WebRsync :=
  self (read_has_bin w obj).2.

Definition has_bin_events (w : World) (obj : WebRsync) : list event :=
  trace (read_has_bin w obj).2.

(** [n] reads of [has_bin] in a row on the same instance. *)
Fixpoint read_has_bin_times (w : World) (n : nat) : M SyncResult unit :=
  match n with
  | O => mret tt
  | S n' => has_bin w;; read_has_bin_times w n'
  end.

(** The instance as [sync] sees it once the caller's options, if any, are
    installed. *)
Definition installed (kwargs : option SyncOptions) (obj : WebRsync) : WebRsync :=
  match kwargs with
  | Some o => mkWebRsync (_bin_command obj) (bin_command obj) (bin_pkg obj)
                (o_repo o) (o_opts o) (o_xterm_titles o) (o_spawn_kwargs o)
  | None => obj
  end.

(** ** Observations on traces *)

Module Obs.

Definition is_spawn (e : event) : bool :=
  match e with EvSpawn _ _ => true | _ => false end.

(** Any call of [_get_openpgp_env], whatever its outcome. *)
Definition is_get_openpgp_env (e : event) : bool :=
  match e with EvGetOpenpgpEnv _ _ => true | _ => false end.

(** A call of [_get_openpgp_env] that returned an environment. *)
Definition is_alloc (e : event) : bool :=
  match e with EvGetOpenpgpEnv _ (Some _) => true | _ => false end.

Definition is_close (e : event) : bool :=
  match e with EvClose _ => true | _ => false end.

Definition is_find_binary (e : event) : bool :=
  match e with EvFindBinary _ => true | _ => false end.

Definition is_logger (e : event) : bool :=
  match e with EvLogger _ _ => true | _ => false end.

Definition is_writemsg (e : event) : bool :=
  match e with EvWritemsgError _ => true | _ => false end.

(** The events of a trace that satisfy [p], in order, and their number. *)
Definition select (p : event -> bool) (t : list event) : list event :=
  List.filter p t.

Definition count (p : event -> bool) (t : list event) : nat :=
  length (select p t).

End Obs.
Import Obs.

(** ** The wording of the specification *)

Module Spec.

(** Two characters that are equal up to the case of an ASCII letter. *)
Inductive ci_char : ascii -> ascii -> Prop :=
| ci_same c : ci_char c c
| ci_upper_lower k :
    (k < 26)%nat -> ci_char (ascii_of_nat (65 + k)) (ascii_of_nat (97 + k))
| ci_lower_upper k :
    (k < 26)%nat -> ci_char (ascii_of_nat (97 + k)) (ascii_of_nat (65 + k)).

(** "Compared case-insensitively": same length, characters pairwise
    equal up to case. *)
Inductive ci_eq : string -> string -> Prop :=
| ci_nil : ci_eq EmptyString EmptyString
| ci_cons a b s t : ci_char a b -> ci_eq s t -> ci_eq (String a s) (String b t).

(** An option is enabled: the key is present and its value is, up to
    case, the literal [true] or the literal [yes]. *)
Definition option_enabled (m : gmap string string) (key : string) : Prop :=
  exists v, m !! key = Some v /\ (ci_eq v "true" \/ ci_eq v "yes").

(** The repository with one module option set. *)
Definition with_option (r : RepoConfig) (key value : string) : RepoConfig :=
  mkRepo (location r) (<[key := value]> (module_specific_options r))
    (sync_openpgp_key_path r).

(** CommandBuilder: the binary path, then the verbose flag if verbose is
    requested, else the quiet flag if quiet is requested, then the
    keep-snapshots flag if that option is enabled. *)
Definition build (binaryPath : option string) (verbose quiet keepSnapshots : bool)
  : list (option string) :=
  binaryPath
    :: (if verbose then [Some "-v"] else if quiet then [Some "-q"] else [])
    ++ (if keepSnapshots then [Some "-k"] else []).

(** The three checks of the Validating state, in the order of the list:
    the message of the first one that is unmet, if any. *)
Definition first_unmet (w : World) (r : RepoConfig) : option string :=
  if negb (truthy (sync_openpgp_key_path r)) then
    Some ("!!! sync-openpgp-key-path is not set" +:+ nl)
  else if negb (isfile w (default "" (sync_openpgp_key_path r))) then
    Some ("!!! sync-openpgp-key-path file not found: "
          +:+ default "" (sync_openpgp_key_path r) +:+ nl)
  else if negb (gemato w) then
    Some ("!!! Verifying against specified key requires gemato-14.5+ installed"
          +:+ nl)
  else None.

(** The configured key path, as the gate uses it once it is known to be
    set. *)
Definition key_path (r : RepoConfig) : string :=
  default "" (sync_openpgp_key_path r).

(** Key import and key refresh both succeed on the environment [h]: the
    key file opens, its content is imported and the keys are refreshed. *)
Definition import_and_refresh_succeed (w : World) (h : OpenPGPEnv)
    (path : string) : Prop :=
  exists f,
    open_rb w path = Ok f
    /\ import_key w h f = Ok tt
    /\ refresh_keys w h = Ok tt.

(** Key import, or key refresh after a successful import, raises [e]. *)
Definition import_or_refresh_raises (w : World) (h : OpenPGPEnv)
    (path : string) (e : exn) : Prop :=
  exists f,
    open_rb w path = Ok f
    /\ (import_key w h f = Err e
        \/ (import_key w h f = Ok tt /\ refresh_keys w h = Err e)).

(** Opening the key file, importing it or refreshing the keys raises
    [e]. *)
Definition keyring_phase_raises (w : World) (h : OpenPGPEnv)
    (path : string) (e : exn) : Prop :=
  open_rb w path = Err e \/ import_or_refresh_raises w h path e.

(** The two exception classes the keyring interface reports its failures
    with, and the [except] clause names: GematoException and
    asyncio.TimeoutError. *)
Definition listed_failure (e : exn) : Prop :=
  (exists m, e = GematoException m) \/ (exists m, e = TimeoutError m).

(** Every [close] recorded in the trace returned normally. *)
Definition closes_quietly (w : World) (t : list event) : Prop :=
  forall h, EvClose h ∈ t -> close w h = Ok tt.

(** The message of the [except] clause of the gate. *)
Definition keyring_problem_message (e : exn) : string :=
  "!!! Verification impossible due to keyring problem:" +:+ nl
  +:+ exn_str e +:+ nl.

(** The message logged when the child fails. *)
Definition transfer_error_message (r : RepoConfig) : string :=
  "!!! emerge-webrsync error in " +:+ location r.

End Spec.
Import Spec.

(** ** Sample inputs *)

Module Samples.

(** Every collaborator succeeds; the child exits with [code]. *)
Definition world (code : Z) : World :=
  mkWorld 0
    (fun name => Some ("/usr/bin/" +:+ name))
    (fun _ path _ => bool_decide (path <> None))
    (fun path => String.eqb path "/etc/keys/release.asc")
    true
    (fun _ => Ok (mkOpenPGPEnv "/tmp/gemato.1"))
    (fun _ => Ok "-----BEGIN PGP PUBLIC KEY BLOCK-----")
    (fun _ _ => Ok tt)
    (fun _ => Ok tt)
    (fun _ _ => Ok code)
    (fun _ => Ok tt).

(** As [world 0], but the key file cannot be opened. *)
Definition world_unreadable : World :=
  mkWorld 0 (find_binary (world 0)) (base_has_bin (world 0))
    (isfile (world 0)) true (get_openpgp_env (world 0))
    (fun _ => Err (OSError "Permission denied"))
    (import_key (world 0)) (refresh_keys (world 0)) (spawn (world 0))
    (close (world 0)).

(** As [world 0], but refreshing the keys times out. *)
Definition world_refresh_timeout : World :=
  mkWorld 0 (find_binary (world 0)) (base_has_bin (world 0))
    (isfile (world 0)) true (get_openpgp_env (world 0))
    (open_rb (world 0)) (import_key (world 0))
    (fun _ => Err (TimeoutError "timed out"))
    (spawn (world 0)) (close (world 0)).


(** As [world 0], but the child cannot be started. *)
Definition world_spawn_fails : World :=
  mkWorld 0 (find_binary (world 0)) (base_has_bin (world 0))
    (isfile (world 0)) true (get_openpgp_env (world 0))
    (open_rb (world 0)) (import_key (world 0)) (refresh_keys (world 0))
    (fun _ _ => Err (OtherException "CommandNotFound" "emerge-webrsync"))
    (close (world 0)).

(** As [world code], but closing the keyring environment raises. *)
Definition world_close_fails (code : Z) : World :=
  mkWorld 0 (find_binary (world 0)) (base_has_bin (world 0))
    (isfile (world 0)) true (get_openpgp_env (world 0))
    (open_rb (world 0)) (import_key (world 0)) (refresh_keys (world 0))
    (spawn (world code))
    (fun _ => Err (OSError "Directory not empty")).

Definition spawn_kwargs0 : SpawnKwargs :=
  mkSpawnKwargs {[ "PATH" := "/usr/bin" ]}
    (<[ "uid" := KwInt 250 ]> {[ "umask" := KwInt 18 ]}).

(** A repository without module options. *)
Definition repo_plain : RepoConfig :=
  mkRepo "/var/db/repos/gentoo" ∅ None.

(** Verification and snapshot keeping switched on, in mixed case. *)
Definition repo_verify : RepoConfig :=
  mkRepo "/var/db/repos/gentoo"
    (<[ "sync-webrsync-verify-signature" := "Yes" ]>
       {[ "sync-webrsync-keep-snapshots" := "TRUE" ]})
    (Some "/etc/keys/release.asc").

(** Verification switched on, no key path configured. *)
Definition repo_verify_nokey : RepoConfig :=
  mkRepo "/var/db/repos/gentoo"
    {[ "sync-webrsync-verify-signature" := "true" ]} None.

(** The delta variant requested. *)
Definition repo_delta : RepoConfig :=
  mkRepo "/var/db/repos/gentoo" {[ "sync-webrsync-delta" := "yes" ]} None.

(** A freshly constructed instance with the given repository and emerge
    options installed. *)
Definition instance (r : RepoConfig) (o : gset string) : WebRsync :=
  mkWebRsync "emerge-webrsync" (Some "/usr/bin/emerge-webrsync")
    ">=sys-apps/portage-2.3" r o true spawn_kwargs0.

(** An instance whose bound command is already the delta variant. *)
Definition instance_delta : WebRsync :=
  mkWebRsync delta_cmd (Some "/usr/bin/emerge-delta-webrsync")
    ">=app-portage/emerge-delta-webrsync-3.7.5" repo_delta ∅ true
    spawn_kwargs0.

(** An instance whose binary was not found by [find_binary]. *)
Definition instance_no_binary : WebRsync :=
  mkWebRsync "emerge-webrsync" None ">=sys-apps/portage-2.3" repo_verify ∅
    true spawn_kwargs0.

End Samples.

(** ** Weakest preconditions *)

(** [wp m st Q]: running [m] from [st] ends in an outcome and a frame that
    satisfy [Q]. *)
Definition wp {R A} (m : M R A) (st : Frame) (Q : ctl R A * Frame -> Prop) : Prop :=
  Q (m st).

(** * Proofs *)

Arguments delta_enabled : simpl never.
Arguments verify_signature_enabled : simpl never.
Arguments keep_snapshots_enabled : simpl never.
Arguments installed : simpl never.
Arguments wp : simpl never.
Arguments select : simpl never.
Arguments count : simpl never.
Local Arguments String.append : simpl never.

(** ** Rules of the weakest-precondition calculus *)

Section Rules.
Context {R : Type}.

Lemma wp_bind {A B} (m : M R A) (k : A -> M R B) st Q :
  wp m st (fun p =>
    match p.1 with
    | Normal a => wp (k a) p.2 Q
    | Return r => Q (Return r, p.2)
    | Raise e => Q (Raise e, p.2)
    end) ->
  wp (mbind (M := M R) k m) st Q.
Proof.
  unfold wp, mbind, M_bind, bind.
  destruct (m st) as [[a|r|e] st']; auto.
Qed.

Lemma wp_ret {A} (a : A) st (Q : ctl R A * Frame -> Prop) :
  Q (Normal a, st) -> wp (mret (M := M R) a) st Q.
Proof. auto. Qed.

Lemma wp_return {A} (r : R) st (Q : ctl R A * Frame -> Prop) :
  Q (Return r, st) -> wp (return_ r) st Q.
Proof. auto. Qed.

Lemma wp_raise {A} e st (Q : ctl R A * Frame -> Prop) :
  Q (Raise e, st) -> wp (raise e) st Q.
Proof. auto. Qed.

Lemma wp_lift {A} (r : result A) st (Q : ctl R A * Frame -> Prop) :
  match r with
  | Ok a => Q (Normal a, st)
  | Err e => Q (Raise e, st)
  end ->
  wp (lift r) st Q.
Proof. destruct r; auto. Qed.

Lemma wp_emit ev st (Q : ctl R unit * Frame -> Prop) :
  Q (Normal tt, mkFrame (self st) (openpgp_env st) (trace st ++ [ev])) ->
  wp (emit ev) st Q.
Proof. auto. Qed.

Lemma wp_get_self st (Q : ctl R WebRsync * Frame -> Prop) :
  Q (Normal (self st), st) -> wp get_self st Q.
Proof. auto. Qed.

Lemma wp_put_self s st (Q : ctl R unit * Frame -> Prop) :
  Q (Normal tt, mkFrame s (openpgp_env st) (trace st)) ->
  wp (put_self s) st Q.
Proof. auto. Qed.

Lemma wp_get_var st (Q : ctl R (option OpenPGPEnv) * Frame -> Prop) :
  Q (Normal (openpgp_env st), st) -> wp get_openpgp_env_var st Q.
Proof. auto. Qed.

Lemma wp_set_var o st (Q : ctl R unit * Frame -> Prop) :
  Q (Normal tt, mkFrame (self st) o (trace st)) ->
  wp (set_openpgp_env_var o) st Q.
Proof. auto. Qed.

Lemma wp_try_except {A} (body : M R A) (classes : exn -> bool)
    (handler : exn -> M R A) st Q :
  wp body st (fun p =>
    match p.1 with
    | Normal a => Q (Normal a, p.2)
    | Return r => Q (Return r, p.2)
    | Raise e =>
        if classes e then wp (handler e) p.2 Q else Q (Raise e, p.2)
    end) ->
  wp (try_except body classes handler) st Q.
Proof.
  unfold wp, try_except.
  destruct (body st) as [[a|r|e] st']; simpl; auto.
  destruct (classes e); auto.
Qed.

Lemma wp_try_finally {A} (body : M R A) (fin : M R unit) st Q :
  wp body st (fun p =>
    wp fin p.2 (fun q =>
      match q.1 with
      | Normal _ => Q (p.1, q.2)
      | Return r => Q (Return r, q.2)
      | Raise e => Q (Raise e, q.2)
      end)) ->
  wp (try_finally body fin) st Q.
Proof.
  unfold wp, try_finally.
  destruct (body st) as [c st']; simpl.
  destruct (fin st') as [[a|r|e] st'']; auto.
Qed.

(** The optional installation of the caller's options. *)
Lemma wp_kwargs (kwargs : option SyncOptions) st (Q : ctl R unit * Frame -> Prop) :
  Q (Normal tt,
     mkFrame (installed kwargs (self st)) (openpgp_env st) (trace st)) ->
  wp (match kwargs with Some o => _kwargs o | None => mret tt end) st Q.
Proof. destruct kwargs, st; auto. Qed.

End Rules.

(** ** Reading [has_bin] *)

Section HasBin.
Variable w : World.

(** A read does not depend on the rest of the frame, nor on the type of
    the enclosing function's return value. *)
Lemma has_bin_run {R} (st : Frame) :
  has_bin (R := R) w st =
  (Normal (has_bin_value w (self st)),
   mkFrame (resolved w (self st)) (openpgp_env st)
     (trace st ++ has_bin_events w (self st))).
Proof.
  unfold has_bin_value, resolved, has_bin_events, read_has_bin, has_bin.
  unfold mbind, mret, M_bind, M_ret, bind, ret, get_self, put_self, emit.
  destruct st as [s o t]; cbn.
  destruct (negb (_bin_command s =? delta_cmd)%string && delta_enabled (repo s));
    cbn; [reflexivity | by rewrite app_nil_r].
Qed.

Lemma wp_has_bin {R} st (Q : ctl R bool * Frame -> Prop) :
  Q (Normal (has_bin_value w (self st)),
     mkFrame (resolved w (self st)) (openpgp_env st)
       (trace st ++ has_bin_events w (self st))) ->
  wp (has_bin w) st Q.
Proof. unfold wp. by rewrite has_bin_run. Qed.

(** What a read does, by the state of the guard. *)
Lemma read_has_bin_cases (s : WebRsync) :
  (negb (_bin_command s =? delta_cmd)%string && delta_enabled (repo s) = true
   /\ resolved w s =
        mkWebRsync delta_cmd (find_binary w delta_cmd)
          ">=app-portage/emerge-delta-webrsync-3.7.5"
          (repo s) (opts s) (xterm_titles s) (spawn_kwargs s)
   /\ has_bin_events w s = [EvFindBinary delta_cmd])
  \/ (negb (_bin_command s =? delta_cmd)%string && delta_enabled (repo s) = false
      /\ resolved w s = s /\ has_bin_events w s = []).
Proof.
  unfold resolved, has_bin_events, read_has_bin, has_bin.
  unfold mbind, mret, M_bind, M_ret, bind, ret, get_self, put_self, emit.
  cbn.
  destruct (negb (_bin_command s =? delta_cmd)%string && delta_enabled (repo s));
    cbn; [left | right]; auto.
Qed.

Lemma has_bin_value_eq (s : WebRsync) :
  has_bin_value w s =
  base_has_bin w (_bin_command (resolved w s)) (bin_command (resolved w s))
    (bin_pkg (resolved w s)).
Proof.
  unfold has_bin_value, resolved, read_has_bin, has_bin.
  unfold mbind, mret, M_bind, M_ret, bind, ret, get_self, put_self, emit.
  cbn.
  by destruct (negb (_bin_command s =? delta_cmd)%string && delta_enabled (repo s)).
Qed.

Lemma repo_resolved s : repo (resolved w s) = repo s.
Proof. by destruct (read_has_bin_cases s) as [(_ & -> & _) | (_ & -> & _)]. Qed.

Lemma opts_resolved s : opts (resolved w s) = opts s.
Proof. by destruct (read_has_bin_cases s) as [(_ & -> & _) | (_ & -> & _)]. Qed.

Lemma xterm_titles_resolved s : xterm_titles (resolved w s) = xterm_titles s.
Proof. by destruct (read_has_bin_cases s) as [(_ & -> & _) | (_ & -> & _)]. Qed.

Lemma spawn_kwargs_resolved s : spawn_kwargs (resolved w s) = spawn_kwargs s.
Proof. by destruct (read_has_bin_cases s) as [(_ & -> & _) | (_ & -> & _)]. Qed.

(** A read calls nothing but [find_binary]. *)
Lemma select_has_bin_events p s :
  p (EvFindBinary delta_cmd) = false -> select p (has_bin_events w s) = [].
Proof.
  intros Hp.
  destruct (read_has_bin_cases s) as [(_ & _ & ->) | (_ & _ & ->)];
    unfold select; cbn; by rewrite ?Hp.
Qed.

Lemma elem_of_has_bin_events e s :
  e ∈ has_bin_events w s -> e = EvFindBinary delta_cmd.
Proof.
  destruct (read_has_bin_cases s) as [(_ & _ & ->) | (_ & _ & ->)];
    intros He.
  - by apply list_elem_of_singleton in He.
  - by apply elem_of_nil in He.
Qed.

End HasBin.

Lemma select_app p (t1 t2 : list event) :
  select p (t1 ++ t2) = (select p t1 ++ select p t2)%list.
Proof. apply List.filter_app. Qed.

Lemma count_app p (t1 t2 : list event) :
  count p (t1 ++ t2) = (count p t1 + count p t2)%nat.
Proof. unfold count. by rewrite select_app, length_app. Qed.

Create Rewrite HintDb resolved.
#[local] Hint Rewrite repo_resolved opts_resolved xterm_titles_resolved
  spawn_kwargs_resolved : resolved.

(** ** Symbolic execution of [sync] *)

(** One step: the rule for the head construct of the program. A condition
    already decided by a hypothesis is rewritten, any other is split. *)
Ltac wp_cond c :=
  first
    [ match goal with H : c = _ |- _ => rewrite H end
    | destruct c eqn:? ].

Ltac wp_step :=
  lazymatch goal with
  | |- wp (mbind _ (match _ with Some o => _kwargs o | None => mret tt end)) _ _ =>
      apply wp_bind, wp_kwargs
  | |- wp (mbind _ _) _ _ => apply wp_bind
  | |- wp (mret _) _ _ => apply wp_ret
  | |- wp (return_ _) _ _ => apply wp_return
  | |- wp (raise _) _ _ => apply wp_raise
  | |- wp (lift ?r) _ _ => apply wp_lift; wp_cond r
  | |- wp (emit _) _ _ => apply wp_emit
  | |- wp (writemsg_level_error _) _ _ => apply wp_emit
  | |- wp get_self _ _ => apply wp_get_self
  | |- wp (put_self _) _ _ => apply wp_put_self
  | |- wp get_openpgp_env_var _ _ => apply wp_get_var
  | |- wp (set_openpgp_env_var _) _ _ => apply wp_set_var
  | |- wp (try_except _ _ _) _ _ => apply wp_try_except
  | |- wp (try_finally _ _) _ _ => apply wp_try_finally
  | |- wp (pop_spawn_kwarg _) _ _ => unfold pop_spawn_kwarg
  | |- wp (set_spawn_env _ _) _ _ => unfold set_spawn_env
  | |- wp (has_bin _) _ _ => apply wp_has_bin
  | |- wp (if ?c then _ else _) _ _ => wp_cond c
  | |- wp (match ?c with _ => _ end) _ _ => wp_cond c
  | |- if is_keyring_exn ?e then _ else _ => wp_cond (is_keyring_exn e)
  end;
  cbn; autorewrite with resolved.

(** State a goal about [call_sync] as a weakest precondition of [sync]. *)
Ltac sync_wp :=
  unfold sync_outcome, sync_trace, sync_self, call_sync;
  match goal with
  | |- context [sync ?w ?k ?st] =>
      pattern (sync w k st);
      match goal with
      | |- ?Q (sync w k st) => change (wp (sync w k) st Q)
      end
  end;
  unfold sync.

Ltac sync_exec := sync_wp; repeat wp_step.

(** Normal form of an observation on the trace of an execution. *)
Ltac trace_norm :=
  unfold count;
  rewrite ?select_app;
  rewrite ?select_has_bin_events by reflexivity;
  unfold select; cbn.

(** Membership in the trace of an execution, event by event. *)
Ltac elem_cases H :=
  rewrite ?elem_of_app, ?list_elem_of_singleton in H;
  destruct_or?;
  try match type of H with
      | _ ∈ has_bin_events _ _ => apply elem_of_has_bin_events in H
      end;
  simplify_eq.

(** ** Execution with the instance kept field by field *)

(** The instance a [has_bin] read leaves, as a record: only the three
    binary fields can differ from those of the instance read. *)
Lemma resolved_fields w s :
  resolved w s =
  mkWebRsync (_bin_command (resolved w s)) (bin_command (resolved w s))
    (bin_pkg (resolved w s)) (repo s) (opts s) (xterm_titles s)
    (spawn_kwargs s).
Proof.
  rewrite <- (repo_resolved w s), <- (opts_resolved w s),
    <- (xterm_titles_resolved w s), <- (spawn_kwargs_resolved w s).
  by destruct (resolved w s).
Qed.

Lemma wp_has_bin_fields {R} w st (Q : ctl R bool * Frame -> Prop) :
  Q (Normal (has_bin_value w (self st)),
     mkFrame
       (mkWebRsync (_bin_command (resolved w (self st)))
          (bin_command (resolved w (self st)))
          (bin_pkg (resolved w (self st))) (repo (self st)) (opts (self st))
          (xterm_titles (self st)) (spawn_kwargs (self st)))
       (openpgp_env st) (trace st ++ has_bin_events w (self st))) ->
  wp (has_bin w) st Q.
Proof. intros H. apply wp_has_bin. by rewrite resolved_fields. Qed.

(** As [wp_step], with the read of [has_bin] leaving a record, so that
    the projections of the instance compute. *)
Ltac wp_step_fields :=
  lazymatch goal with
  | |- wp (mbind _ (match _ with Some o => _kwargs o | None => mret tt end)) _ _ =>
      apply wp_bind, wp_kwargs
  | |- wp (mbind _ _) _ _ => apply wp_bind
  | |- wp (mret _) _ _ => apply wp_ret
  | |- wp (return_ _) _ _ => apply wp_return
  | |- wp (raise _) _ _ => apply wp_raise
  | |- wp (lift ?r) _ _ => apply wp_lift; wp_cond r
  | |- wp (emit _) _ _ => apply wp_emit
  | |- wp (writemsg_level_error _) _ _ => apply wp_emit
  | |- wp get_self _ _ => apply wp_get_self
  | |- wp (put_self _) _ _ => apply wp_put_self
  | |- wp get_openpgp_env_var _ _ => apply wp_get_var
  | |- wp (set_openpgp_env_var _) _ _ => apply wp_set_var
  | |- wp (try_except _ _ _) _ _ => apply wp_try_except
  | |- wp (try_finally _ _) _ _ => apply wp_try_finally
  | |- wp (pop_spawn_kwarg _) _ _ => unfold pop_spawn_kwarg
  | |- wp (set_spawn_env _ _) _ _ => unfold set_spawn_env
  | |- wp (has_bin _) _ _ => apply wp_has_bin_fields
  | |- wp (if ?c then _ else _) _ _ => wp_cond c
  | |- wp (match ?c with _ => _ end) _ _ => wp_cond c
  | |- if is_keyring_exn ?e then _ else _ => wp_cond (is_keyring_exn e)
  end;
  cbn.

Ltac sync_run := sync_wp; repeat wp_step_fields.

(** The sign of the [has_bin] test, in the form the program branches on. *)
Lemma negb_has_bin_true w s : has_bin_value w s = false -> negb (has_bin_value w s) = true.
Proof. by intros ->. Qed.

Lemma negb_has_bin_false w s : has_bin_value w s = true -> negb (has_bin_value w s) = false.
Proof. by intros ->. Qed.

(** ** The keyring environment is released exactly once *)

Section ReleaseOnce.
Variables (w : World) (obj : WebRsync) (kwargs : option SyncOptions).

(** C2. In every execution of [sync], whatever its outcome (a returned
    pair or a raised exception), [_get_openpgp_env] returns an environment
    at most once, [close] is called as many times as an environment was
    allocated, hence never when none was, and when an environment [h] was
    allocated the single [close] is on [h] and is the last call made. *)
Theorem sync_closes_keyring_exactly_once :
  (count is_alloc (sync_trace w obj kwargs) <= 1)%nat
  /\ count is_close (sync_trace w obj kwargs)
     = count is_alloc (sync_trace w obj kwargs)
  /\ forall p h,
       EvGetOpenpgpEnv p (Some h) ∈ sync_trace w obj kwargs ->
       exists pre,
         sync_trace w obj kwargs = (pre ++ [EvClose h])%list
         /\ count is_close pre = 0%nat.
Proof.
  sync_run.
  all: split_and?; try (trace_norm; cbn; lia).
  all: intros p h Hin; elem_cases Hin.
  all: eexists; split; [reflexivity | by trace_norm].
Qed.

End ReleaseOnce.

(** A run on which an environment is allocated, closed once, last. *)
Lemma sync_closes_keyring_exactly_once_witness :
  exists pre,
    sync_trace (Samples.world 0)
      (Samples.instance Samples.repo_verify ∅) None
    = (pre ++ [EvClose (mkOpenPGPEnv "/tmp/gemato.1")])%list
    /\ count is_close pre = 0%nat.
Proof.
  apply (proj2 (proj2 (sync_closes_keyring_exactly_once (Samples.world 0)
                         (Samples.instance Samples.repo_verify ∅) None))
           "/etc/keys/release.asc").
  apply list_elem_of_In. vm_compute.
  left. reflexivity.
Defined.

(** ** The verification gate *)

Section Gate.
Variables (w : World) (obj : WebRsync) (kwargs : option SyncOptions).

(** C1. With [sync-webrsync-verify-signature] enabled, if the key path is
    unset, or is not an existing file, or gemato is unavailable, then
    [sync] returns exactly [(1, False)], spawns no process and never
    calls [_get_openpgp_env]; and when the binary is available the only
    thing it does after reading [has_bin] is to report the first unmet
    precondition, in the order key path, key file, gemato. *)
Theorem sync_fails_fast_on_unmet_precondition :
  verify_signature_enabled (repo (installed kwargs obj)) = true ->
  truthy (sync_openpgp_key_path (repo (installed kwargs obj))) = false
  \/ isfile w (default "" (sync_openpgp_key_path (repo (installed kwargs obj))))
     = false
  \/ gemato w = false ->
  sync_outcome w obj kwargs = Return (1, false)
  /\ count is_spawn (sync_trace w obj kwargs) = 0%nat
  /\ count is_get_openpgp_env (sync_trace w obj kwargs) = 0%nat
  /\ (has_bin_value w (installed kwargs obj) = true ->
      exists msg,
        first_unmet w (repo (installed kwargs obj)) = Some msg
        /\ sync_trace w obj kwargs
           = (has_bin_events w (installed kwargs obj)
                ++ [EvWritemsgError msg])%list).
Proof.
  intros Hverify Hunmet.
  sync_run.
  all: try (exfalso; destruct Hunmet as [H | [H | H]];
            rewrite H in *; discriminate).
  all: split_and?; try reflexivity; try by trace_norm.
  all: intros Hbin; try (rewrite Hbin in *; discriminate).
  all: unfold first_unmet;
    repeat match goal with H : negb _ = _ |- _ => rewrite H end;
    eexists; split; reflexivity.
Qed.

End Gate.

(** A run that stops at the first check: no key path is configured. *)
Lemma sync_fails_fast_on_unmet_precondition_witness :
  sync_outcome (Samples.world 0)
    (Samples.instance Samples.repo_verify_nokey ∅) None
  = Return (1, false).
Proof.
  apply (sync_fails_fast_on_unmet_precondition (Samples.world 0)
           (Samples.instance Samples.repo_verify_nokey ∅) None).
  - vm_compute. reflexivity.
  - left. vm_compute. reflexivity.
Defined.

(** ** Option values *)

Section OptionValues.

Lemma lower_ascii_upper k :
  (k < 26)%nat -> lower_ascii (ascii_of_nat (65 + k)) = ascii_of_nat (97 + k).
Proof.
  intros Hk. do 26 (destruct k as [|k]; [reflexivity|]). lia.
Qed.

Lemma lower_ascii_lower k :
  (k < 26)%nat -> lower_ascii (ascii_of_nat (97 + k)) = ascii_of_nat (97 + k).
Proof.
  intros Hk. do 26 (destruct k as [|k]; [reflexivity|]). lia.
Qed.

Lemma ci_char_lower a b : ci_char a b -> lower_ascii a = lower_ascii b.
Proof.
  destruct 1 as [c | k Hk | k Hk]; [reflexivity | |];
    by rewrite lower_ascii_upper, lower_ascii_lower.
Qed.

Lemma ci_char_lower_ascii c : ci_char c (lower_ascii c).
Proof.
  unfold lower_ascii.
  destruct ((65 <=? nat_of_ascii c) && (nat_of_ascii c <=? 90))%nat eqn:Hc;
    [| apply ci_same].
  apply andb_true_iff in Hc as [Hlo%Nat.leb_le Hhi%Nat.leb_le].
  rewrite <- (ascii_nat_embedding c) at 1.
  replace (nat_of_ascii c) with (65 + (nat_of_ascii c - 65))%nat at 1 by lia.
  replace (nat_of_ascii c + 32)%nat with (97 + (nat_of_ascii c - 65))%nat by lia.
  apply ci_upper_lower. lia.
Qed.

Lemma ci_eq_lower s t : ci_eq s t -> lower s = lower t.
Proof.
  induction 1 as [| a b s t Hab _ IH]; [reflexivity |].
  cbn. by rewrite (ci_char_lower a b Hab), IH.
Qed.

Lemma ci_eq_lower_self s : ci_eq s (lower s).
Proof.
  induction s as [| c s IH]; cbn; constructor; auto using ci_char_lower_ascii.
Qed.

(** Lowering and comparing with a lower-case literal is the
    case-insensitive comparison. *)
Lemma lower_eq_iff_ci_eq v lit : lower lit = lit -> lower v = lit <-> ci_eq v lit.
Proof.
  intros Hlit. split.
  - intros <-. apply ci_eq_lower_self.
  - intros H. by rewrite (ci_eq_lower _ _ H).
Qed.

Lemma str_in_true_yes x : str_in x ["true"; "yes"] = true <-> x = "true" \/ x = "yes".
Proof.
  unfold str_in; cbn.
  rewrite !orb_true_iff, !String.eqb_eq. intuition discriminate.
Qed.

(** The expression the code uses three times, against the wording of the
    specification. *)
Lemma enabled_expression_spec (m : gmap string string) (key : string) :
  str_in (lower (dict_get m key "false")) ["true"; "yes"] = true
  <-> option_enabled m key.
Proof.
  rewrite str_in_true_yes.
  rewrite !lower_eq_iff_ci_eq by reflexivity.
  unfold dict_get, option_enabled.
  destruct (m !! key) as [v |]; cbn.
  - split; [intros H; by exists v | by intros (? & [= <-] & H)].
  - split; [| by intros (? & [=] & _)].
    intros [H | H]; apply ci_eq_lower in H; discriminate.
Qed.

Lemma enabled_expression_absent (m : gmap string string) (key : string) :
  m !! key = None ->
  str_in (lower (dict_get m key "false")) ["true"; "yes"] = false.
Proof. unfold dict_get. by intros ->. Qed.

Lemma enabled_expression_false (m : gmap string string) (key : string) :
  str_in (lower (dict_get (<[key := "false"]> m) key "false")) ["true"; "yes"]
  = false.
Proof. unfold dict_get. by rewrite lookup_insert_eq. Qed.

(** C7. Each of the three module options is enabled exactly when its key
    is present with a value that equals the literal "true" or the literal
    "yes" up to case; any other value, and an absent key, disable it,
    and an absent key gives the same answer as the value "false". *)
Theorem module_options_enabled_iff (r : RepoConfig) :
  (delta_enabled r = true
   <-> option_enabled (module_specific_options r) "sync-webrsync-delta")
  /\ (verify_signature_enabled r = true
      <-> option_enabled (module_specific_options r)
            "sync-webrsync-verify-signature")
  /\ (keep_snapshots_enabled r = true
      <-> option_enabled (module_specific_options r)
            "sync-webrsync-keep-snapshots")
  /\ (module_specific_options r !! "sync-webrsync-delta" = None ->
      delta_enabled r = false
      /\ delta_enabled r
         = delta_enabled (with_option r "sync-webrsync-delta" "false"))
  /\ (module_specific_options r !! "sync-webrsync-verify-signature" = None ->
      verify_signature_enabled r = false
      /\ verify_signature_enabled r
         = verify_signature_enabled
             (with_option r "sync-webrsync-verify-signature" "false"))
  /\ (module_specific_options r !! "sync-webrsync-keep-snapshots" = None ->
      keep_snapshots_enabled r = false
      /\ keep_snapshots_enabled r
         = keep_snapshots_enabled
             (with_option r "sync-webrsync-keep-snapshots" "false")).
Proof.
  unfold delta_enabled, verify_signature_enabled, keep_snapshots_enabled,
    with_option; cbn [module_specific_options].
  split_and?; try apply enabled_expression_spec.
  all: intros Habs; rewrite enabled_expression_false;
    by rewrite enabled_expression_absent.
Qed.

End OptionValues.

(** A repository without the key: the delta option is off. *)
Lemma module_options_enabled_iff_witness :
  delta_enabled Samples.repo_plain = false
  /\ delta_enabled Samples.repo_plain
     = delta_enabled
         (with_option Samples.repo_plain "sync-webrsync-delta" "false").
Proof.
  apply (proj1 (proj2 (proj2 (proj2
           (module_options_enabled_iff Samples.repo_plain))))).
  vm_compute. reflexivity.
Defined.

(** ** The delta substitution of [has_bin] *)

Section Delta.
Variable w : World.

Lemma resolved_delta (s : WebRsync) :
  _bin_command s = delta_cmd -> resolved w s = s /\ has_bin_events w s = [].
Proof.
  intros Hs.
  destruct (read_has_bin_cases w s) as [(Hc & _) | (_ & Hr & He)]; [| done].
  rewrite Hs in Hc. discriminate.
Qed.

Lemma read_has_bin_times_unfold (n : nat) (st : Frame) :
  read_has_bin_times w (S n) st =
  read_has_bin_times w n
    (mkFrame (resolved w (self st)) (openpgp_env st)
       (trace st ++ has_bin_events w (self st))).
Proof.
  cbn [read_has_bin_times]. unfold mbind, M_bind, bind.
  by rewrite has_bin_run.
Qed.

(** Reads on an instance already bound to the delta variant do nothing. *)
Lemma read_has_bin_times_delta (n : nat) (st : Frame) :
  _bin_command (self st) = delta_cmd ->
  read_has_bin_times w n st = (Normal tt, st).
Proof.
  revert st. induction n as [| n IH]; intros st Hst; [reflexivity |].
  rewrite read_has_bin_times_unfold.
  destruct (resolved_delta (self st) Hst) as [-> ->].
  rewrite app_nil_r. destruct st; cbn in *. by apply IH.
Qed.

(** Any number of reads extends the trace by at most one [find_binary]. *)
Lemma read_has_bin_times_trace (n : nat) (st : Frame) :
  exists evs,
    trace (read_has_bin_times w n st).2 = (trace st ++ evs)%list
    /\ (count is_find_binary evs <= 1)%nat.
Proof.
  revert st. induction n as [| n IH]; intros st.
  - exists []. cbn. split; [by rewrite app_nil_r | by compute; lia].
  - rewrite read_has_bin_times_unfold.
    destruct (read_has_bin_cases w (self st)) as [(_ & Hr & He) | (_ & Hr & He)];
      rewrite Hr, He.
    + rewrite read_has_bin_times_delta by reflexivity. cbn.
      exists [EvFindBinary delta_cmd]. split; [reflexivity | by compute; lia].
    + rewrite app_nil_r. destruct st; cbn. apply IH.
Qed.

(** C10. Among any number of consecutive reads of [has_bin] on one
    instance at most one performs the substitution (calls [find_binary]);
    a read that performs it leaves the bound command set to the delta
    variant; and on an instance whose bound command is the delta variant
    every further read leaves [_bin_command], [bin_command] and [bin_pkg]
    as they are and calls nothing. *)
Theorem has_bin_substitutes_at_most_once (s : WebRsync) (n : nat) :
  (count is_find_binary
     (trace (read_has_bin_times w n (mkFrame s None [])).2) <= 1)%nat
  /\ (has_bin_events w s <> [] -> _bin_command (resolved w s) = delta_cmd)
  /\ (_bin_command s = delta_cmd ->
      let s' := self (read_has_bin_times w n (mkFrame s None [])).2 in
      _bin_command s' = _bin_command s
      /\ bin_command s' = bin_command s
      /\ bin_pkg s' = bin_pkg s
      /\ trace (read_has_bin_times w n (mkFrame s None [])).2 = []).
Proof.
  split_and?.
  - destruct (read_has_bin_times_trace n (mkFrame s None [])) as (evs & -> & H).
    exact H.
  - destruct (read_has_bin_cases w s) as [(_ & -> & _) | (_ & _ & ->)]; done.
  - intros Hs. by rewrite read_has_bin_times_delta.
Qed.

End Delta.

(** Three reads on an instance already bound to the delta variant. *)
Lemma has_bin_substitutes_at_most_once_witness :
  _bin_command
    (self (read_has_bin_times (Samples.world 0) 3
             (mkFrame Samples.instance_delta None [])).2)
  = delta_cmd
  /\ trace (read_has_bin_times (Samples.world 0) 3
              (mkFrame Samples.instance_delta None [])).2 = [].
Proof.
  destruct (proj2 (proj2 (has_bin_substitutes_at_most_once (Samples.world 0)
                            Samples.instance_delta 3)))
    as (H1 & _ & _ & H2).
  - reflexivity.
  - split; [exact H1 | exact H2].
Defined.

(** ** The unimplemented native strategy *)

(** C9. Every call of [PyWebRsync.sync] raises [NotImplementedError], and
    does so before anything else happens: the instance and the trace are
    those of the call, so no call was made and nothing was allocated. *)
Theorem py_sync_raises_not_implemented (kwargs : option SyncOptions) (st : Frame) :
  (exists msg, (call_py_sync kwargs st).1 = Raise (NotImplementedError msg))
  /\ (call_py_sync kwargs st).2 = st
  /\ count is_alloc (trace (call_py_sync kwargs st).2) = count is_alloc (trace st).
Proof. split_and?; [by eexists | reflexivity | reflexivity]. Qed.

(** ** Key import, key refresh and the spawn environment *)

(** Hypotheses and goals are put in the terms of the program. *)
Ltac spec_unfold :=
  unfold key_path, keyring_problem_message, transfer_error_message in *.

(** Two recorded outcomes of the same call are the same outcome. *)
Ltac unify_calls :=
  repeat match goal with
         | H1 : ?t = _, H2 : ?t = _ |- _ => rewrite H1 in H2; simplify_eq
         end.

(** Take the assumptions on the keyring phase apart and confront them with
    the outcomes met during the execution. *)
Ltac clash :=
  repeat match goal with
         | H : import_and_refresh_succeed _ _ _ |- _ =>
             destruct H as (? & ? & ? & ?)
         | H : import_or_refresh_raises _ _ _ _ |- _ =>
             destruct H as (? & ? & [? | [? ?]])
         | H : keyring_phase_raises _ _ _ _ |- _ => destruct H as [? | ?]
         end;
  unify_calls; try congruence.

(** An event with known constructor is somewhere in a trace built by
    appending. *)
Ltac elem_solve :=
  rewrite ?elem_of_app, ?list_elem_of_singleton;
  solve [repeat first [right; reflexivity | left]].

(** The [except] clause names exactly the two classes of the keyring
    interface. *)
Lemma is_keyring_exn_listed (e : exn) : is_keyring_exn e = true <-> listed_failure e.
Proof.
  unfold listed_failure. destruct e; cbn; split; try discriminate; eauto.
  all: by intros [[? ?] | [? ?]].
Qed.

Lemma is_keyring_exn_unlisted (e : exn) :
  is_keyring_exn e = false <-> ~ listed_failure e.
Proof.
  rewrite <- is_keyring_exn_listed. by destruct (is_keyring_exn e).
Qed.

(** The class tests met during an execution, in the words of the
    specification. *)
Ltac classes :=
  repeat match goal with
         | H : is_keyring_exn _ = true |- _ => apply is_keyring_exn_listed in H
         | H : is_keyring_exn _ = false |- _ => apply is_keyring_exn_unlisted in H
         | u : unit |- _ => destruct u
         end.

(** The gate's preconditions, as the tests of the program. *)
Ltac preconditions Hmet :=
  unfold first_unmet in Hmet;
  destruct (negb (truthy _)) eqn:? in Hmet; [discriminate |];
  destruct (negb (isfile _ _)) eqn:? in Hmet; [discriminate |];
  destruct (negb (gemato _)) eqn:? in Hmet; [discriminate |];
  clear Hmet.

(** A [close] that the execution found raising, although every [close] of
    the trace is assumed to return. *)
Ltac close_quiet Hq :=
  try (exfalso;
       match goal with
       | H : close _ _ = Err _ |- _ =>
           rewrite Hq in H by elem_solve; discriminate
       end).

(** The sign of the exit-code test, as an (in)equation. *)
Ltac exit_code :=
  repeat match goal with
         | H : negb (_ =? _) = true |- _ => apply negb_true_iff, Z.eqb_neq in H
         | H : negb (_ =? _) = false |- _ => apply negb_false_iff, Z.eqb_eq in H
         end.


Section Provision.
Variables (w : World) (obj : WebRsync) (kwargs : option SyncOptions).
Variable h : OpenPGPEnv.


End Provision.


(** ** Which failures become a result, and which propagate *)

(** The origin of an exception that leaves [sync]. *)
Ltac origin :=
  first
    [ by left
    | by right; left; split;
         [| eexists; split; [first [eassumption | reflexivity] |];
            unfold keyring_phase_raises, import_or_refresh_raises; eauto 10]
    | by right; right; left; eexists _, _; split; [elem_solve | eassumption]
    | by right; right; right; eexists; split; [elem_solve | eassumption] ].

(** An unreadable key file: the [OSError] of [open] is not converted. *)
Lemma sync_propagates_key_file_error :
  sync_outcome Samples.world_unreadable
    (Samples.instance Samples.repo_verify ∅) None
  = Raise (OSError "Permission denied")
  /\ ~ exists r,
         sync_outcome Samples.world_unreadable
           (Samples.instance Samples.repo_verify ∅) None
         = Return r.
Proof.
  assert (H : sync_outcome Samples.world_unreadable
                (Samples.instance Samples.repo_verify ∅) None
              = Raise (OSError "Permission denied"))
    by (vm_compute; reflexivity).
  split; [exact H |]. intros [r Hr]. rewrite H in Hr. discriminate.
Qed.

Section Propagation.
Variables (w : World) (obj : WebRsync) (kwargs : option SyncOptions).

Local Abbreviation s0 := (installed kwargs obj).

(** C3, as amended. [sync] ends by returning a pair or by raising an
    exception that a collaborator raised and that no handler of [sync]
    names.  A GematoException or TimeoutError raised while the key file is
    opened, imported or refreshed becomes the result [(1, False)].  Every
    other exception propagates to the caller: one raised by
    [_get_openpgp_env], one of another class raised while the key file is
    opened, imported or refreshed, one raised by [spawn], and one raised by
    [close] in the [finally] block, which replaces whatever result or
    exception was pending. *)
Theorem sync_converts_keyring_errors_only :
  ((exists r, sync_outcome w obj kwargs = Return r)
   \/ exists e,
        sync_outcome w obj kwargs = Raise e
        /\ (get_openpgp_env w (key_path (repo s0)) = Err e
            \/ (~ listed_failure e
                /\ exists h,
                     get_openpgp_env w (key_path (repo s0)) = Ok h
                     /\ keyring_phase_raises w h (key_path (repo s0)) e)
            \/ (exists cmd k,
                  EvSpawn cmd k ∈ sync_trace w obj kwargs
                  /\ spawn w cmd k = Err e)
            \/ exists h,
                 EvClose h ∈ sync_trace w obj kwargs /\ close w h = Err e))
  /\ (forall h e,
        has_bin_value w s0 = true ->
        verify_signature_enabled (repo s0) = true ->
        first_unmet w (repo s0) = None ->
        get_openpgp_env w (key_path (repo s0)) = Ok h ->
        listed_failure e ->
        keyring_phase_raises w h (key_path (repo s0)) e ->
        close w h = Ok tt ->
        sync_outcome w obj kwargs = Return (1, false))
  /\ (forall e,
        has_bin_value w s0 = true ->
        verify_signature_enabled (repo s0) = true ->
        first_unmet w (repo s0) = None ->
        get_openpgp_env w (key_path (repo s0)) = Err e ->
        sync_outcome w obj kwargs = Raise e)
  /\ (forall h e,
        has_bin_value w s0 = true ->
        verify_signature_enabled (repo s0) = true ->
        first_unmet w (repo s0) = None ->
        get_openpgp_env w (key_path (repo s0)) = Ok h ->
        ~ listed_failure e ->
        keyring_phase_raises w h (key_path (repo s0)) e ->
        close w h = Ok tt ->
        sync_outcome w obj kwargs = Raise e)
  /\ (forall cmd k e,
        EvSpawn cmd k ∈ sync_trace w obj kwargs ->
        spawn w cmd k = Err e ->
        closes_quietly w (sync_trace w obj kwargs) ->
        sync_outcome w obj kwargs = Raise e)
  /\ (forall h e,
        EvClose h ∈ sync_trace w obj kwargs ->
        close w h = Err e ->
        sync_outcome w obj kwargs = Raise e).
Proof.
  spec_unfold. unfold closes_quietly. split_and?.
  - sync_run; classes.
    all: first [ by left; eexists
               | right; eexists; split; [reflexivity |]; origin ].
  - intros h e Hbin%negb_has_bin_false Hverify Hmet Halloc Hexc Hraises Hclose.
    preconditions Hmet. sync_run; classes.
    all: first [ reflexivity | by exfalso; clash ].
  - intros e Hbin%negb_has_bin_false Hverify Hmet Halloc.
    preconditions Hmet. by sync_run.
  - intros h e Hbin%negb_has_bin_false Hverify Hmet Halloc Hexc Hraises Hclose.
    preconditions Hmet. sync_run; classes.
    all: first [ by exfalso; clash | by clash ].
  - sync_run.
    all: intros cmd k e' Hin Hspawn Hq; elem_cases Hin.
    all: close_quiet Hq; by unify_calls.
  - sync_run.
    all: intros h' e' Hin Hclose; elem_cases Hin; by unify_calls.
Qed.

End Propagation.

(** A refresh that times out is converted into the result; an unreadable
    key file and a child that cannot be started are not. *)
Lemma sync_converts_keyring_errors_only_witness :
  sync_outcome Samples.world_refresh_timeout
    (Samples.instance Samples.repo_verify ∅) None
  = Return (1, false)
  /\ sync_outcome Samples.world_unreadable
       (Samples.instance Samples.repo_verify ∅) None
     = Raise (OSError "Permission denied")
  /\ sync_outcome Samples.world_spawn_fails
       (Samples.instance Samples.repo_plain ∅) None
     = Raise (OtherException "CommandNotFound" "emerge-webrsync").
Proof.
  split_and?.
  - apply (proj1 (proj2 (sync_converts_keyring_errors_only
                           Samples.world_refresh_timeout
                           (Samples.instance Samples.repo_verify ∅) None))
             (mkOpenPGPEnv "/tmp/gemato.1") (TimeoutError "timed out")
             eq_refl eq_refl eq_refl eq_refl).
    + right. by eexists.
    + right. exists "-----BEGIN PGP PUBLIC KEY BLOCK-----".
      split; [reflexivity |]. right. split; reflexivity.
    + reflexivity.
  - apply (proj1 (proj2 (proj2 (proj2 (sync_converts_keyring_errors_only
                                         Samples.world_unreadable
                                         (Samples.instance Samples.repo_verify ∅)
                                         None))))
             (mkOpenPGPEnv "/tmp/gemato.1") (OSError "Permission denied")
             eq_refl eq_refl eq_refl eq_refl).
    + by intros [[? ?] | [? ?]].
    + left. reflexivity.
    + reflexivity.
  - apply (proj1 (proj2 (proj2 (proj2 (proj2
             (sync_converts_keyring_errors_only Samples.world_spawn_fails
                (Samples.instance Samples.repo_plain ∅) None)))))
             [Some "/usr/bin/emerge-webrsync"]
             (mkSpawnKwargs (env Samples.spawn_kwargs0)
                (delete "groups"
                   (delete "gid" (delete "uid" (kw Samples.spawn_kwargs0)))))).
    + apply list_elem_of_In. vm_compute. left. reflexivity.
    + reflexivity.
    + intros h Hin. apply list_elem_of_In in Hin. vm_compute in Hin.
      by destruct_or?.
Defined.

(** ** Verification disabled *)

Section Disabled.
Variables (w : World) (obj : WebRsync) (kwargs : option SyncOptions).

(** C4. When [sync-webrsync-verify-signature] is not enabled (the key is
    absent, or its value is neither "true" nor "yes" up to case), [sync]
    never calls [_get_openpgp_env], closes nothing, and leaves the [env]
    dictionary of the spawn arguments as it found it; in particular
    [PORTAGE_GPG_DIR] and [PORTAGE_TEMP_GPG_DIR] are as they were, both
    after the call and in the environment any child is spawned with. *)
Theorem sync_without_verification_sets_no_gpg_dir :
  ~ option_enabled (module_specific_options (repo (installed kwargs obj)))
      "sync-webrsync-verify-signature" ->
  count is_get_openpgp_env (sync_trace w obj kwargs) = 0%nat
  /\ count is_close (sync_trace w obj kwargs) = 0%nat
  /\ env (spawn_kwargs (sync_self w obj kwargs))
     = env (spawn_kwargs (installed kwargs obj))
  /\ env (spawn_kwargs (sync_self w obj kwargs)) !! "PORTAGE_GPG_DIR"
     = env (spawn_kwargs (installed kwargs obj)) !! "PORTAGE_GPG_DIR"
  /\ env (spawn_kwargs (sync_self w obj kwargs)) !! "PORTAGE_TEMP_GPG_DIR"
     = env (spawn_kwargs (installed kwargs obj)) !! "PORTAGE_TEMP_GPG_DIR"
  /\ forall cmd k,
       EvSpawn cmd k ∈ sync_trace w obj kwargs ->
       env k = env (spawn_kwargs (installed kwargs obj)).
Proof.
  intros Hoff.
  assert (Hverify : verify_signature_enabled (repo (installed kwargs obj)) = false).
  { apply not_true_is_false. intros Hon. apply Hoff.
    by apply enabled_expression_spec. }
  clear Hoff.
  sync_run.
  all: split_and?; try reflexivity; try by trace_norm.
  all: intros cmd k Hin; by elem_cases Hin.
Qed.

End Disabled.

(** A repository without module options: nothing is injected. *)
Lemma sync_without_verification_sets_no_gpg_dir_witness :
  env (spawn_kwargs
         (sync_self (Samples.world 0)
            (Samples.instance Samples.repo_plain ∅) None))
    !! "PORTAGE_GPG_DIR" = None
  /\ count is_get_openpgp_env
       (sync_trace (Samples.world 0)
          (Samples.instance Samples.repo_plain ∅) None) = 0%nat.
Proof.
  destruct (sync_without_verification_sets_no_gpg_dir (Samples.world 0)
              (Samples.instance Samples.repo_plain ∅) None)
    as (Hcalls & _ & _ & Hgpg & _).
  - intros (v & Hv & _). vm_compute in Hv. discriminate.
  - split; [| exact Hcalls]. rewrite Hgpg. vm_compute. reflexivity.
Defined.

(** ** The command vector *)

Lemma build_shape (b : option string) (v q k : bool) :
  head (build b v q k) = Some b
  /\ (Some "-v" ∈ tail (build b v q k) <-> v = true)
  /\ (Some "-q" ∈ tail (build b v q k) <-> v = false /\ q = true)
  /\ ~ (Some "-v" ∈ tail (build b v q k) /\ Some "-q" ∈ tail (build b v q k))
  /\ (Some "-k" ∈ tail (build b v q k) <-> k = true).
Proof.
  destruct v, q, k; cbn; rewrite ?elem_of_cons, ?elem_of_nil;
    intuition (discriminate || eauto).
Qed.

Section Command.
Variables (w : World) (obj : WebRsync) (kwargs : option SyncOptions).

Local Abbreviation s0 := (installed kwargs obj).

(** C5. The argument vector of every spawn is the one CommandBuilder
    describes: the bound binary path first, then [-v] if [--verbose] is
    among the emerge options, else [-q] if [--quiet] is, then [-k] iff
    [sync-webrsync-keep-snapshots] is enabled.  So [-v] and [-q] never
    both appear, [-v] wins, and the vector is a function of the binary
    path and the three flags. *)
Theorem spawned_command_vector (cmd : list (option string)) (k : SpawnKwargs) :
  EvSpawn cmd k ∈ sync_trace w obj kwargs ->
  cmd = build (bin_command (resolved w s0))
          (bool_decide ("--verbose" ∈ opts s0))
          (bool_decide ("--quiet" ∈ opts s0))
          (keep_snapshots_enabled (repo s0))
  /\ head cmd = Some (bin_command (resolved w s0))
  /\ (Some "-v" ∈ tail cmd <-> "--verbose" ∈ opts s0)
  /\ (Some "-q" ∈ tail cmd <-> ("--verbose" ∉ opts s0) /\ ("--quiet" ∈ opts s0))
  /\ ~ (Some "-v" ∈ tail cmd /\ Some "-q" ∈ tail cmd)
  /\ (Some "-k" ∈ tail cmd
      <-> option_enabled (module_specific_options (repo s0))
            "sync-webrsync-keep-snapshots").
Proof.
  assert (Hcmd : EvSpawn cmd k ∈ sync_trace w obj kwargs ->
                 cmd = build (bin_command (resolved w s0))
                         (bool_decide ("--verbose" ∈ opts s0))
                         (bool_decide ("--quiet" ∈ opts s0))
                         (keep_snapshots_enabled (repo s0))).
  { revert cmd k. sync_run.
    all: intros cmd k Hin; elem_cases Hin.
    all: by destruct (keep_snapshots_enabled _), (bool_decide ("--verbose" ∈ _)),
           (bool_decide ("--quiet" ∈ _)). }
  intros Hin. specialize (Hcmd Hin). split; [exact Hcmd |].
  rewrite Hcmd.
  destruct (build_shape (bin_command (resolved w s0))
              (bool_decide ("--verbose" ∈ opts s0))
              (bool_decide ("--quiet" ∈ opts s0))
              (keep_snapshots_enabled (repo s0)))
    as (Hhd & Hv & Hq & Hvq & Hk).
  split_and?; [exact Hhd | | | exact Hvq |].
  - by rewrite Hv, bool_decide_eq_true.
  - by rewrite Hq, bool_decide_eq_false, bool_decide_eq_true.
  - rewrite Hk. apply enabled_expression_spec.
Qed.

End Command.

(** A quiet run that keeps snapshots: binary, [-q], [-k]. *)
Lemma spawned_command_vector_witness :
  [Some "/usr/bin/emerge-webrsync"; Some "-q"; Some "-k"]
  = build
      (bin_command
         (resolved (Samples.world 0)
            (installed None (Samples.instance Samples.repo_verify {["--quiet"]}))))
      (bool_decide
         ("--verbose"
          ∈ opts (installed None
                    (Samples.instance Samples.repo_verify {["--quiet"]}))))
      (bool_decide
         ("--quiet"
          ∈ opts (installed None
                    (Samples.instance Samples.repo_verify {["--quiet"]}))))
      (keep_snapshots_enabled
         (repo (installed None
                  (Samples.instance Samples.repo_verify {["--quiet"]})))).
Proof.
  refine (proj1 (spawned_command_vector (Samples.world 0)
                   (Samples.instance Samples.repo_verify {["--quiet"]}) None
                   [Some "/usr/bin/emerge-webrsync"; Some "-q"; Some "-k"]
                   (mkSpawnKwargs
                      (<["PORTAGE_TEMP_GPG_DIR" := "/tmp/gemato.1"]>
                         (<["PORTAGE_GPG_DIR" := "/tmp/gemato.1"]>
                            (env Samples.spawn_kwargs0)))
                      (delete "groups"
                         (delete "gid"
                            (delete "uid" (kw Samples.spawn_kwargs0))))) _)).
  apply list_elem_of_In. vm_compute.
  do 5 right. left. reflexivity.
Defined.

(** ** The child's exit code *)

(** A verified run whose child exits with [os.EX_OK], but whose keyring
    environment cannot be closed: the exception of [close] leaves [sync]
    in place of [(EX_OK, True)]. *)
Lemma sync_raises_when_close_fails :
  EvSpawn [Some "/usr/bin/emerge-webrsync"; Some "-k"]
    (mkSpawnKwargs
       (<["PORTAGE_TEMP_GPG_DIR" := "/tmp/gemato.1"]>
          (<["PORTAGE_GPG_DIR" := "/tmp/gemato.1"]>
             (env Samples.spawn_kwargs0)))
       (delete "groups"
          (delete "gid" (delete "uid" (kw Samples.spawn_kwargs0)))))
  ∈ sync_trace (Samples.world_close_fails 0)
      (Samples.instance Samples.repo_verify ∅) None
  /\ spawn (Samples.world_close_fails 0)
       [Some "/usr/bin/emerge-webrsync"; Some "-k"]
       (mkSpawnKwargs
          (<["PORTAGE_TEMP_GPG_DIR" := "/tmp/gemato.1"]>
             (<["PORTAGE_GPG_DIR" := "/tmp/gemato.1"]>
                (env Samples.spawn_kwargs0)))
          (delete "groups"
             (delete "gid" (delete "uid" (kw Samples.spawn_kwargs0)))))
     = Ok (EX_OK (Samples.world_close_fails 0))
  /\ sync_outcome (Samples.world_close_fails 0)
       (Samples.instance Samples.repo_verify ∅) None
     = Raise (OSError "Directory not empty")
  /\ sync_outcome (Samples.world_close_fails 0)
       (Samples.instance Samples.repo_verify ∅) None
     <> Return (EX_OK (Samples.world_close_fails 0), true).
Proof.
  assert (H : sync_outcome (Samples.world_close_fails 0)
                (Samples.instance Samples.repo_verify ∅) None
              = Raise (OSError "Directory not empty"))
    by (vm_compute; reflexivity).
  split_and?; [| reflexivity | exact H | by rewrite H].
  apply list_elem_of_In. vm_compute. do 5 right. left. reflexivity.
Qed.

Section ExitCode.
Variables (w : World) (obj : WebRsync) (kwargs : option SyncOptions).

Local Abbreviation s0 := (installed kwargs obj).

(** C6, as amended. If a child was spawned and exited with code [c]: when
    [c] is [os.EX_OK] nothing is logged or written, and [sync] returns
    [(EX_OK, True)] provided the [close] of the keyring environment, if
    there is one, returns; otherwise the logger was called exactly once,
    with the message that names the repository location, that message was
    written exactly once to the error level, and [sync] returns
    [(c, False)] under the same proviso.  An exception raised by [close]
    leaves [sync] in place of the pair. *)
Theorem sync_result_follows_child_exit
    (cmd : list (option string)) (k : SpawnKwargs) (c : Z) :
  EvSpawn cmd k ∈ sync_trace w obj kwargs ->
  spawn w cmd k = Ok c ->
  (c = EX_OK w ->
   (closes_quietly w (sync_trace w obj kwargs) ->
    sync_outcome w obj kwargs = Return (EX_OK w, true))
   /\ select is_logger (sync_trace w obj kwargs) = []
   /\ select is_writemsg (sync_trace w obj kwargs) = [])
  /\ (c <> EX_OK w ->
      (closes_quietly w (sync_trace w obj kwargs) ->
       sync_outcome w obj kwargs = Return (c, false))
      /\ select is_logger (sync_trace w obj kwargs)
         = [EvLogger (xterm_titles s0) (transfer_error_message (repo s0))]
      /\ select is_writemsg (sync_trace w obj kwargs)
         = [EvWritemsgError (transfer_error_message (repo s0) +:+ nl)])
  /\ (forall h e,
        EvClose h ∈ sync_trace w obj kwargs ->
        close w h = Err e ->
        sync_outcome w obj kwargs = Raise e).
Proof.
  spec_unfold. unfold closes_quietly. revert cmd k c. sync_run.
  all: intros cmd k c Hin Hspawn; elem_cases Hin.
  all: unify_calls; exit_code.
  all: split_and?.
  all: try (intros Hc;
            first [ contradiction
                  | split_and?; [| by trace_norm | by trace_norm];
                    intros Hq; close_quiet Hq; by subst ]).
  all: intros h' e' Hin Hclose; elem_cases Hin; by unify_calls.
Qed.

End ExitCode.

(** A child that exits with code 2: the code is surfaced and the error is
    logged once. *)
Lemma sync_result_follows_child_exit_witness :
  sync_outcome (Samples.world 2) (Samples.instance Samples.repo_plain ∅) None
  = Return (2, false)
  /\ select is_logger
       (sync_trace (Samples.world 2) (Samples.instance Samples.repo_plain ∅) None)
     = [EvLogger true "!!! emerge-webrsync error in /var/db/repos/gentoo"].
Proof.
  destruct (sync_result_follows_child_exit (Samples.world 2)
              (Samples.instance Samples.repo_plain ∅) None
              [Some "/usr/bin/emerge-webrsync"]
              (mkSpawnKwargs (env Samples.spawn_kwargs0)
                 (delete "groups"
                    (delete "gid" (delete "uid" (kw Samples.spawn_kwargs0)))))
              2) as (_ & Hfail & _).
  - apply list_elem_of_In. vm_compute. left. reflexivity.
  - reflexivity.
  - destruct Hfail as (Hout & Hlog & _); [discriminate |].
    split; [| exact Hlog]. apply Hout. intros h Hin.
    apply list_elem_of_In in Hin. vm_compute in Hin. by destruct_or?.
Defined.

(** * Further properties of [sync] and [has_bin] *)

(** ** No usable binary *)

Section NoBinary.
Variables (w : World) (obj : WebRsync) (kwargs : option SyncOptions).

Local Abbreviation s0 := (installed kwargs obj).

(** When [has_bin] is false, [sync] returns [(1, False)] at once: the only
    calls are those of the [has_bin] read, and the instance is the one
    that read leaves, so [uid], [gid] and [groups] are not even popped. *)
Theorem sync_without_binary :
  has_bin_value w s0 = false ->
  sync_outcome w obj kwargs = Return (1, false)
  /\ sync_trace w obj kwargs = has_bin_events w s0
  /\ sync_self w obj kwargs = resolved w s0.
Proof.
  intros Hbin%negb_has_bin_true.
  sync_exec. by destruct (resolved w s0).
Qed.

End NoBinary.

(** The binary was never found: nothing is attempted. *)
Lemma sync_without_binary_witness :
  sync_outcome (Samples.world 0) Samples.instance_no_binary None
  = Return (1, false)
  /\ sync_trace (Samples.world 0) Samples.instance_no_binary None = [].
Proof.
  destruct (sync_without_binary (Samples.world 0) Samples.instance_no_binary None)
    as (Hout & Htrace & _).
  - vm_compute. reflexivity.
  - split; [exact Hout |]. rewrite Htrace. vm_compute. reflexivity.
Defined.

(** ** The identity arguments of the spawn *)

Section Identity.
Variables (w : World) (obj : WebRsync) (kwargs : option SyncOptions).

Local Abbreviation s0 := (installed kwargs obj).


End Identity.


(** ** Verification comes before the transfer *)

Section Verified.
Variables (w : World) (obj : WebRsync) (kwargs : option SyncOptions).

Local Abbreviation s0 := (installed kwargs obj).

(** With [sync-webrsync-verify-signature] enabled, a child is spawned
    only when all three preconditions hold, a keyring environment [h] was
    obtained, and the key file was opened, imported and refreshed without
    error; and the child then runs with [PORTAGE_GPG_DIR] and
    [PORTAGE_TEMP_GPG_DIR] set to [h.home]. *)
Theorem sync_spawns_only_after_verification
    (cmd : list (option string)) (k : SpawnKwargs) :
  option_enabled (module_specific_options (repo s0))
    "sync-webrsync-verify-signature" ->
  EvSpawn cmd k ∈ sync_trace w obj kwargs ->
  first_unmet w (repo s0) = None
  /\ exists h,
       get_openpgp_env w (key_path (repo s0)) = Ok h
       /\ import_and_refresh_succeed w h (key_path (repo s0))
       /\ env k !! "PORTAGE_GPG_DIR" = Some (home h)
       /\ env k !! "PORTAGE_TEMP_GPG_DIR" = Some (home h).
Proof.
  intros Hverify%enabled_expression_spec.
  change (verify_signature_enabled (repo s0) = true) in Hverify.
  revert cmd k. spec_unfold. unfold first_unmet, import_and_refresh_succeed.
  sync_run.
  all: intros cmd k Hin; elem_cases Hin.
  all: repeat match goal with u : unit |- _ => destruct u end.
  all: repeat match goal with H : negb _ = _ |- _ => rewrite H end.
  all: split; [reflexivity |].
  all: eexists; split_and?; [reflexivity | by eexists | by simplify_map_eq ..].
Qed.

End Verified.

(** On the sample run the child sees the keyring directory. *)
Lemma sync_spawns_only_after_verification_witness :
  first_unmet (Samples.world 0)
    (repo (installed None (Samples.instance Samples.repo_verify ∅))) = None.
Proof.
  refine (proj1 (sync_spawns_only_after_verification (Samples.world 0)
                   (Samples.instance Samples.repo_verify ∅) None
                   [Some "/usr/bin/emerge-webrsync"; Some "-k"]
                   (mkSpawnKwargs
                      (<["PORTAGE_TEMP_GPG_DIR" := "/tmp/gemato.1"]>
                         (<["PORTAGE_GPG_DIR" := "/tmp/gemato.1"]>
                            (env Samples.spawn_kwargs0)))
                      (delete "groups"
                         (delete "gid"
                            (delete "uid" (kw Samples.spawn_kwargs0))))) _ _)).
  - apply enabled_expression_spec. reflexivity.
  - apply list_elem_of_In. vm_compute. do 5 right. left. reflexivity.
Defined.

(** ** The result pair *)

Section ResultPair.
Variables (w : World) (obj : WebRsync) (kwargs : option SyncOptions).

Local Abbreviation s0 := (installed kwargs obj).

(** Whenever [sync] returns [(c, b)]: at most one child was spawned; [b]
    is true exactly when a child was spawned and exited with [os.EX_OK],
    and then [c] is [os.EX_OK]; and when [b] is false, [c] is either 1 or
    the exit code, different from [os.EX_OK], of the child that was
    spawned. *)
Theorem sync_success_iff_child_ok (c : Z) (b : bool) :
  sync_outcome w obj kwargs = Return (c, b) ->
  (count is_spawn (sync_trace w obj kwargs) <= 1)%nat
  /\ (b = true
      <-> exists cmd k,
            EvSpawn cmd k ∈ sync_trace w obj kwargs
            /\ spawn w cmd k = Ok (EX_OK w))
  /\ (b = true -> c = EX_OK w)
  /\ (b = false ->
      c = 1
      \/ (c <> EX_OK w
          /\ exists cmd k,
               EvSpawn cmd k ∈ sync_trace w obj kwargs
               /\ spawn w cmd k = Ok c)).
Proof.
  revert c b. sync_run.
  all: intros c b Hout; simplify_eq.
  all: repeat match goal with
              | H : negb (_ =? _) = true |- _ =>
                  apply negb_true_iff, Z.eqb_neq in H
              | H : negb (_ =? _) = false |- _ =>
                  apply negb_false_iff, Z.eqb_eq in H; subst
              end.
  all: split_and?; try (trace_norm; lia); try done.
  all: try (split; [try done |];
            intros (cmd & k & Hin & Hspawn); elem_cases Hin;
            by unify_calls).
  all: try (split; [| done]; intros _;
            eexists _, _; split; [elem_solve | eassumption]).
  all: try (intros _; by left).
  all: intros _; right; split; [done |];
    eexists _, _; split; [elem_solve | eassumption].
Qed.

End ResultPair.

(** The child exits with 2: the pair is [(2, False)], after one spawn. *)
Lemma sync_success_iff_child_ok_witness :
  (count is_spawn
     (sync_trace (Samples.world 2) (Samples.instance Samples.repo_plain ∅) None)
   <= 1)%nat.
Proof.
  refine (proj1 (sync_success_iff_child_ok (Samples.world 2)
                   (Samples.instance Samples.repo_plain ∅) None 2 false _)).
  vm_compute. reflexivity.
Defined.

(** ** The error messages of a call *)

Section Messages.
Variables (w : World) (obj : WebRsync) (kwargs : option SyncOptions).

Local Abbreviation s0 := (installed kwargs obj).

(** The error messages [sync] itself writes (the base class reports an
    unusable binary on its own): never more than one; none when it returns
    success; when it returns a failure, exactly one if the binary was
    usable and none if it was not; and when an exception propagates, none,
    unless that exception is one [close] raised. *)
Theorem sync_writes_one_error_per_failure :
  (count is_writemsg (sync_trace w obj kwargs) <= 1)%nat
  /\ (forall c,
        sync_outcome w obj kwargs = Return (c, true) ->
        count is_writemsg (sync_trace w obj kwargs) = 0%nat)
  /\ (forall c,
        sync_outcome w obj kwargs = Return (c, false) ->
        count is_writemsg (sync_trace w obj kwargs)
        = if has_bin_value w s0 then 1%nat else 0%nat)
  /\ (forall e,
        sync_outcome w obj kwargs = Raise e ->
        count is_writemsg (sync_trace w obj kwargs) = 0%nat
        \/ exists h,
             EvClose h ∈ sync_trace w obj kwargs /\ close w h = Err e).
Proof.
  sync_run.
  all: destruct (has_bin_value w s0); try discriminate.
  all: split_and?; [trace_norm; lia | intros c Hout | intros c Hout | intros e' Hout].
  all: simplify_eq; try by trace_norm.
  all: first [ by left; trace_norm
             | right; eexists; split; [elem_solve | eassumption] ].
Qed.

End Messages.

(** A child that exits with code 2: one message. *)
Lemma sync_writes_one_error_per_failure_witness :
  count is_writemsg
    (sync_trace (Samples.world 2) (Samples.instance Samples.repo_plain ∅) None)
  = 1%nat.
Proof.
  refine (proj1 (proj2 (proj2 (sync_writes_one_error_per_failure
                                  (Samples.world 2)
                                  (Samples.instance Samples.repo_plain ∅) None)))
            2 _).
  vm_compute. reflexivity.
Defined.

(** ** The order of the calls *)

Section Sequence.
Variables (w : World) (obj : WebRsync) (kwargs : option SyncOptions).
Variable h : OpenPGPEnv.

Local Abbreviation s0 := (installed kwargs obj).

(** A verified run, call by call.  With the binary usable, verification
    enabled, the preconditions met, the environment [h] obtained and the
    key imported and refreshed, [sync] makes exactly these calls after the
    [has_bin] read, in this order: [_get_openpgp_env] on the key path, the
    "Using keys from" notice (quiet iff [--quiet] was given), [open] on
    the key path, [import_key], [_refresh_keys], one [spawn], then - only
    if the child reported a code other than [os.EX_OK] - the logger and
    the error message, and last [close] on [h]. *)
Theorem verified_sync_call_sequence :
  has_bin_value w s0 = true ->
  verify_signature_enabled (repo s0) = true ->
  first_unmet w (repo s0) = None ->
  get_openpgp_env w (key_path (repo s0)) = Ok h ->
  import_and_refresh_succeed w h (key_path (repo s0)) ->
  exists cmd k rest,
    sync_trace w obj kwargs
    = (has_bin_events w s0
         ++ [EvGetOpenpgpEnv (key_path (repo s0)) (Some h);
             EvEinfo (bool_decide ("--quiet" ∈ opts s0))
               ("Using keys from " +:+ key_path (repo s0));
             EvOpen (key_path (repo s0));
             EvImportKey h;
             EvRefreshKeys h;
             EvSpawn cmd k]
         ++ rest ++ [EvClose h])%list
    /\ (rest = []
        \/ (exists c, spawn w cmd k = Ok c /\ c <> EX_OK w)
           /\ rest = [EvLogger (xterm_titles s0) (transfer_error_message (repo s0));
                      EvWritemsgError
                        (transfer_error_message (repo s0) +:+ nl)]).
Proof.
  intros Hbin%negb_has_bin_false Hverify Hmet Halloc Hkeys.
  spec_unfold. unfold first_unmet in Hmet.
  sync_run.
  all: repeat match goal with
              | H : negb _ = _ |- _ => rewrite H in Hmet
              end; try discriminate.
  all: try (exfalso; clash; fail).
  all: unify_calls.
  all: repeat match goal with
              | H : negb (_ =? _) = true |- _ =>
                  apply negb_true_iff, Z.eqb_neq in H
              end.
  all: eexists _, _;
    first
      [ exists []; split; [by rewrite <- !app_assoc | by left]
      | eexists [_; _]; split;
        [by rewrite <- !app_assoc | right; split; [by eexists | done]] ].
Qed.

End Sequence.

(** The sample verified run. *)
Lemma verified_sync_call_sequence_witness :
  exists cmd k rest,
    sync_trace (Samples.world 0) (Samples.instance Samples.repo_verify ∅) None
    = (has_bin_events (Samples.world 0)
         (installed None (Samples.instance Samples.repo_verify ∅))
         ++ [EvGetOpenpgpEnv "/etc/keys/release.asc"
               (Some (mkOpenPGPEnv "/tmp/gemato.1"));
             EvEinfo false "Using keys from /etc/keys/release.asc";
             EvOpen "/etc/keys/release.asc";
             EvImportKey (mkOpenPGPEnv "/tmp/gemato.1");
             EvRefreshKeys (mkOpenPGPEnv "/tmp/gemato.1");
             EvSpawn cmd k]
         ++ rest ++ [EvClose (mkOpenPGPEnv "/tmp/gemato.1")])%list.
Proof.
  destruct (verified_sync_call_sequence (Samples.world 0)
              (Samples.instance Samples.repo_verify ∅) None
              (mkOpenPGPEnv "/tmp/gemato.1")
              eq_refl eq_refl eq_refl eq_refl)
    as (cmd & k & rest & Htrace & _).
  - exists "-----BEGIN PGP PUBLIC KEY BLOCK-----". repeat split.
  - exists cmd, k, rest. exact Htrace.
Defined.

(** ** What [has_bin] selects *)

(** The guard of the substitution, in the words of the options table. *)
Lemma delta_guard_spec (s : WebRsync) :
  negb (_bin_command s =? delta_cmd)%string && delta_enabled (repo s) = true
  <-> option_enabled (module_specific_options (repo s)) "sync-webrsync-delta"
      /\ _bin_command s <> delta_cmd.
Proof.
  rewrite andb_true_iff, negb_true_iff, String.eqb_neq.
  unfold delta_enabled. rewrite enabled_expression_spec. tauto.
Qed.

Section Selection.
Variable w : World.

(** With [sync-webrsync-delta] enabled on an instance not yet bound to
    the delta variant, a read of [has_bin] binds [emerge-delta-webrsync]:
    it looks that name up with [find_binary], once, records the result and
    the package requirement of the delta variant, and answers for the
    delta binary, not for the one bound before.  Otherwise the read leaves
    the instance alone, looks nothing up and answers for the bound binary.
    Either way the rest of the instance is untouched and a second read
    changes nothing and gives the same answer. *)
Theorem has_bin_selects_delta (s : WebRsync) :
  (option_enabled (module_specific_options (repo s)) "sync-webrsync-delta" ->
   _bin_command s <> delta_cmd ->
   _bin_command (resolved w s) = delta_cmd
   /\ bin_command (resolved w s) = find_binary w delta_cmd
   /\ bin_pkg (resolved w s) = ">=app-portage/emerge-delta-webrsync-3.7.5"
   /\ has_bin_events w s = [EvFindBinary delta_cmd]
   /\ has_bin_value w s
      = base_has_bin w delta_cmd (find_binary w delta_cmd)
          ">=app-portage/emerge-delta-webrsync-3.7.5")
  /\ (~ option_enabled (module_specific_options (repo s)) "sync-webrsync-delta"
      \/ _bin_command s = delta_cmd ->
      resolved w s = s
      /\ has_bin_events w s = []
      /\ has_bin_value w s
         = base_has_bin w (_bin_command s) (bin_command s) (bin_pkg s))
  /\ repo (resolved w s) = repo s
  /\ opts (resolved w s) = opts s
  /\ xterm_titles (resolved w s) = xterm_titles s
  /\ spawn_kwargs (resolved w s) = spawn_kwargs s
  /\ resolved w (resolved w s) = resolved w s
  /\ has_bin_events w (resolved w s) = []
  /\ has_bin_value w (resolved w s) = has_bin_value w s.
Proof.
  pose proof (delta_guard_spec s) as Hguard.
  assert (Hagain : resolved w (resolved w s) = resolved w s
                   /\ has_bin_events w (resolved w s) = []).
  { destruct (read_has_bin_cases w s) as [(_ & Hr & _) | (Hc & Hr & _)].
    - apply resolved_delta. by rewrite Hr.
    - rewrite Hr.
      destruct (read_has_bin_cases w s) as [(Hc' & _) | (_ & Hr' & He')];
        [congruence | done]. }
  destruct Hagain as [Hres Hev].
  split_and?; auto using repo_resolved, opts_resolved, xterm_titles_resolved,
    spawn_kwargs_resolved.
  - intros Hon Hne. rewrite has_bin_value_eq.
    destruct (read_has_bin_cases w s) as [(_ & -> & ->) | (Hc & _)]; [done |].
    apply not_true_iff_false in Hc. destruct Hc. by apply Hguard.
  - intros Hoff. rewrite has_bin_value_eq.
    destruct (read_has_bin_cases w s) as [(Hc & _) | (_ & -> & ->)]; [| done].
    apply Hguard in Hc as [Hon Hne]. by destruct Hoff.
  - by rewrite !has_bin_value_eq, Hres.
Qed.

End Selection.

(** The delta variant is requested on a fresh instance. *)
Lemma has_bin_selects_delta_witness :
  _bin_command
    (resolved (Samples.world 0) (Samples.instance Samples.repo_delta ∅))
  = delta_cmd
  /\ bin_command
       (resolved (Samples.world 0) (Samples.instance Samples.repo_delta ∅))
     = Some "/usr/bin/emerge-delta-webrsync".
Proof.
  destruct (proj1 (has_bin_selects_delta (Samples.world 0)
                     (Samples.instance Samples.repo_delta ∅)))
    as (Hcmd & Hbin & _).
  - apply enabled_expression_spec. reflexivity.
  - discriminate.
  - split; [exact Hcmd |]. rewrite Hbin. reflexivity.
Defined.

(** ** What [sync] leaves on the instance *)

Section Frame.
Variables (w : World) (obj : WebRsync) (kwargs : option SyncOptions).

Local Abbreviation s0 := (installed kwargs obj).


(** The binary a child is spawned from.  A child is spawned only when
    [has_bin] is true, and its first argument is the binary that read
    selected: the path [find_binary] gave for [emerge-delta-webrsync] when
    [sync-webrsync-delta] is enabled on an instance not yet bound to it,
    the binary already bound when the option is not enabled. *)
Theorem sync_spawns_selected_binary (cmd : list (option string)) (k : SpawnKwargs) :
  EvSpawn cmd k ∈ sync_trace w obj kwargs ->
  has_bin_value w s0 = true
  /\ head cmd = Some (bin_command (resolved w s0))
  /\ (option_enabled (module_specific_options (repo s0)) "sync-webrsync-delta" ->
      _bin_command s0 <> delta_cmd ->
      head cmd = Some (find_binary w delta_cmd))
  /\ (~ option_enabled (module_specific_options (repo s0)) "sync-webrsync-delta" ->
      head cmd = Some (bin_command s0)).
Proof.
  assert (Hhead : EvSpawn cmd k ∈ sync_trace w obj kwargs ->
                  has_bin_value w s0 = true
                  /\ head cmd = Some (bin_command (resolved w s0))).
  { revert cmd k. sync_run.
    all: intros cmd k Hin; elem_cases Hin.
    all: split; [by destruct (has_bin_value w s0) |].
    all: by repeat case_match. }
  intros Hin. destruct (Hhead Hin) as [Hbin Hhd].
  pose proof (delta_guard_spec s0) as Hguard.
  split_and?; [exact Hbin | exact Hhd | |]; rewrite Hhd.
  - intros Hon Hne.
    destruct (read_has_bin_cases w s0) as [(_ & -> & _) | (Hc & _)]; [done |].
    apply not_true_iff_false in Hc. destruct Hc. by apply Hguard.
  - intros Hoff.
    destruct (read_has_bin_cases w s0) as [(Hc & _) | (_ & -> & _)]; [| done].
    apply Hguard in Hc as [Hon _]. by destruct Hoff.
Qed.

End Frame.

(** Without the delta option the child is the plain binary. *)
Lemma sync_spawns_selected_binary_witness :
  head [Some "/usr/bin/emerge-webrsync"]
  = Some (bin_command (installed None (Samples.instance Samples.repo_plain ∅))).
Proof.
  destruct (sync_spawns_selected_binary (Samples.world 0)
              (Samples.instance Samples.repo_plain ∅) None
              [Some "/usr/bin/emerge-webrsync"]
              (mkSpawnKwargs (env Samples.spawn_kwargs0)
                 (delete "groups"
                    (delete "gid" (delete "uid" (kw Samples.spawn_kwargs0))))))
    as (_ & _ & _ & Hplain).
  - apply list_elem_of_In. vm_compute. left. reflexivity.
  - apply Hplain. intros (v & Hv & _). vm_compute in Hv. discriminate.
Defined.
